(** * astroquery.legacysurvey: the brick lookup of [LegacySurveyClass]

    A shallow embedding of [astroquery/legacysurvey/core.py].  The three
    query methods and [_parse_result] are written in a small monad that
    threads the file system and a log of the effects the methods have
    (HTTP requests, prints, loop iterations) and in which a Python
    exception is an outcome of its own.

    Sky coordinates and brick bounds are Python floats.  The code only
    compares them and truncates one of them to an integer; both operations
    are exact on finite doubles, which are rationals, so they are embedded
    as [Q].  Integers ([data_release], [int(...)]) are [Z] and are printed
    the way [str] prints them, by stdpp's [pretty]. *)

From stdpp Require Import base strings list gmap pretty.
From Stdlib Require Import QArith ZArith Ascii Lqa Qabs.
Close Scope Q_scope.

(** ** Data *)

(** One line of a survey-bricks table.  Only the five columns the code
    reads are kept: [r['brickname']], [r['ra1']], [r['ra2']], [r['dec1']],
    [r['dec2']]. *)
Record Row := mkRow {
  brickname : string;
  ra1 : Q;
  ra2 : Q;
  dec1 : Q;
  dec2 : Q
}.

(** An [astropy.table.Table], iterated row by row. *)
Abbreviation Table := (list Row).

(** A [requests.Response]: the code reads [response.content] only. *)
Record Response := mkResponse {
  status_code : Z;
  content : list Byte.byte
}.

(** [coordinates]: the code reads [coordinates.ra.deg] and
    [coordinates.dec.deg]. *)
Record SkyCoord := mkSkyCoord {
  ra_deg : Q;
  dec_deg : Q
}.

(** The instance: the class attributes [URL = conf.server] and
    [TIMEOUT = conf.timeout]. *)
Record LegacySurveyClass := mkLegacySurvey {
  URL : string;
  TIMEOUT : Z
}.

(** What an [_async] method returns: the request payload (a dict) when
    [get_query_payload] is set, the raw HTTP response otherwise. *)
Inductive async_result :=
  | Payload (request_payload : gmap string string)
  | Resp (response : Response).

(** The exceptions that occur in the module. *)
Inductive exn :=
  | ValueError (msg : string)
  | UnboundLocalError (name : string)
  | AttributeError (attr : string)
  | FileNotFoundError (path : string)
  | RequestException (msg : string).

Definition is_ValueError (e : exn) : bool :=
  match e with ValueError _ => true | _ => false end.

(** The two loops of [query_region_async]. *)
Inductive catalog := TableNorth | TableSouth.

(** The observable steps of a call, in the order they happen. *)
Inductive event :=
  | EvRequest (method url : string) (params : gmap string string)
              (timeout : Z) (cache : bool)       (* self._request(...) *)
  | EvGet (url : string)                         (* requests.get(url) *)
  | EvPrint (msg : string)                       (* print(msg) *)
  | EvSuppressVoWarnings                         (* commons.suppress_vo_warnings() *)
  | EvVisit (c : catalog) (i : nat).             (* the loop body runs on row i *)

(** ** The effect monad *)

Inductive outcome (A : Type) :=
  | Return (a : A)
  | Raise (e : exn).
Arguments Return {A} a.
Arguments Raise {A} e.

Record state := mkState {
  files : gmap string (list Byte.byte);
  log : list event
}.

Definition M (A : Type) : Type := state → outcome A * state.

Global Instance M_ret : MRet M := λ A a s, (Return a, s).

Global Instance M_bind : MBind M := λ A B f m s,
  match m s with
  | (Return a, s') => f a s'
  | (Raise e, s') => (Raise e, s')
  end.

Definition raise {A} (e : exn) : M A := λ s, (Raise e, s).

Definition add_log (evs : list event) (s : state) : state :=
  {| files := files s; log := log s ++ evs |}.

Definition emit (ev : event) : M unit := λ s, (Return (), add_log [ev] s).

(** [try: body except ValueError: handler]: any other exception goes on. *)
Definition try_except_ValueError {A} (body handler : M A) : M A := λ s,
  match body s with
  | (Raise e, s') => if is_ValueError e then handler s' else (Raise e, s')
  | r => r
  end.

(** Reading a local variable: [None] is a name that was never bound. *)
Definition read_local {A} (name : string) (v : option A) : M A :=
  match v with
  | Some a => mret a
  | None => raise (UnboundLocalError name)
  end.

(** ** The environment

    What the calls that leave the module answer: [requests.get],
    [BaseQuery._request] (of [..query], with [params={}]) and
    [Table.read] on the bytes of a file. *)
Record World := mkWorld {
  requests_get : string → outcome Response;
  base_request : string → string → gmap string string → Z → bool
                 → outcome Response;
  table_read : list Byte.byte → Z → outcome Table
}.

Definition call_requests_get (W : World) (url : string) : M Response :=
  λ s, (requests_get W url, add_log [EvGet url] s).

Definition call_request (W : World) (method url : string)
    (params : gmap string string) (timeout : Z) (cache : bool) : M Response :=
  λ s, (base_request W method url params timeout cache,
        add_log [EvRequest method url params timeout cache] s).

(** [with open(path, 'wb') as fin: fin.write(data)] *)
Definition write_file (path : string) (data : list Byte.byte) : M unit :=
  λ s, (Return (), {| files := <[path := data]> (files s); log := log s |}).

(** [Table.read(path, hdu=hdu)] *)
Definition Table_read (W : World) (path : string) (hdu : Z) : M Table :=
  λ s, match files s !! path with
       | Some data => (table_read W data hdu, s)
       | None => (Raise (FileNotFoundError path), s)
       end.

(** ** Formatting *)

Fixpoint zeros (k : nat) : string :=
  match k with
  | O => ""
  | S k' => String "0"%char (zeros k')
  end.

(** ["{0:03}".format(n)] on an integer: decimal digits, filled with zeros
    between the sign and the digits up to a width of three characters. *)
Definition format_03 (n : Z) : string :=
  let sign := if (n <? 0)%Z then "-" else "" in
  let digits := pretty (Z.abs n) in
  sign +:+ zeros (3 - String.length sign - String.length digits) +:+ digits.

(** [int(x)] on a float: the integer part, rounding toward zero. *)
Definition int (x : Q) : Z := Z.quot (Qnum x) (Z.pos (Qden x)).

(** ** The module *)

(** [ra1 <= ra <= ra2 and dec1 <= dec <= dec2] (lines 219 and 227) *)
Definition in_box (r : Row) (ra dec : Q) : bool :=
  (Qle_bool (ra1 r) ra && Qle_bool ra (ra2 r))
  && (Qle_bool (dec1 r) dec && Qle_bool dec (dec2 r)).

(** [for r in table: ... if <in box>: row = r; break], with [row = None]
    before the loop; [i] is the index of the head of [table]. *)
Fixpoint scan (c : catalog) (ra dec : Q) (i : nat) (table : Table)
    : M (option Row) :=
  match table with
  | [] => mret None
  | r :: rest =>
      _ ← emit (EvVisit c i);
      if in_box r ra dec then mret (Some r)
      else scan c ra dec (S i) rest
  end.

Definition query_object_async (W : World) (self : LegacySurveyClass)
    (object_name : string) (get_query_payload cache : bool)
    (data_release : Z) : M async_result :=
  let request_payload : gmap string string := ∅ in
  if get_query_payload then mret (Payload request_payload)
  else
    let url := URL self +:+ "/dr" +:+ pretty data_release
               +:+ "/north/tractor/000/tractor-0001m002.fits" in
    response ← call_request W "GET" url ∅ (TIMEOUT self) cache;
    mret (Resp response).

Definition query_brick_list_async (W : World) (self : LegacySurveyClass)
    (data_release : Z) (get_query_payload : bool) (emisphere : string)
    (cache : bool) : M async_result :=
  let request_payload : gmap string string := ∅ in
  if get_query_payload then mret (Payload request_payload)
  else
    let url := URL self +:+ "/dr" +:+ pretty data_release +:+ "/" +:+ emisphere
               +:+ "/survey-bricks-dr" +:+ pretty data_release +:+ "-"
               +:+ emisphere +:+ ".fits.gz" in
    response ← call_requests_get W url;
    _ ← emit (EvPrint "completed fits file request");
    mret (Resp response).

(** The [try] statement of [_parse_result] (lines 276-291); its value is
    the local [table] afterwards, [None] when it was not assigned. *)
Definition parse_try (W : World) (response : Response) : M (option Table) :=
  try_except_ValueError
    (_ ← write_file "/tmp/file_content" (content response);
     table ← Table_read W "/tmp/file_content" 1;
     mret (Some table))
    (mret None).

Definition _parse_result (W : World) (self : LegacySurveyClass)
    (response : Response) (verbose : bool) : M Table :=
  _ ← (if negb verbose then emit EvSuppressVoWarnings else mret ());
  table ← parse_try W response;
  read_local "table" table.

(** Modelled from the spec: [query_brick_list], the synchronous method that
    the [async_to_sync] decorator of [..utils] adds to the class, is not
    among the sources.  It is the spec's BrickCatalogFetcher and follows the
    pattern core.py quotes in lines 57-65: call the [_async] method, hand
    its response to [_parse_result].  It is called with [data_release] and
    [emisphere] only, so [get_query_payload], [cache] and [verbose] have
    their defaults; a dict has no [content]. *)
Definition query_brick_list (W : World) (self : LegacySurveyClass)
    (data_release : Z) (emisphere : string) : M Table :=
  response ← query_brick_list_async W self data_release false emisphere true;
  match response with
  | Resp r => _parse_result W self r false
  | Payload _ => raise (AttributeError "content")
  end.

Definition query_region_async (W : World) (self : LegacySurveyClass)
    (coordinates : SkyCoord) (radius : Q) (get_query_payload cache : bool)
    (data_release : Z) : M (option Response) :=
  table_north ← query_brick_list W self data_release "north";
  table_south ← query_brick_list W self data_release "south";
  let ra := ra_deg coordinates in
  let dec := dec_deg coordinates in
  row_north ← scan TableNorth ra dec 0 table_north;
  row_south ← scan TableSouth ra dec 0 table_south;
  match row_north with
  | Some row_north =>
      let brickname := brickname row_north in
      let raIntPart := format_03 (int (ra1 row_north)) in
      let url := URL self +:+ "/dr" +:+ pretty data_release
                 +:+ "/north/tractor/" +:+ raIntPart +:+ "/tractor-"
                 +:+ brickname +:+ ".fits" in
      response_north ← call_requests_get W url;
      mret (Some response_north)
  | None =>
      match row_south with
      | Some row_south =>
          let brickname := brickname row_south in
          let raIntPart := format_03 (int (ra1 row_south)) in
          let url := URL self +:+ "/dr" +:+ pretty data_release
                     +:+ "/south/tractor/" +:+ raIntPart +:+ "/tractor-"
                     +:+ brickname +:+ ".fits" in
          response_south ← call_requests_get W url;
          mret (Some response_south)
      | None => mret None
      end
  end.

(** ** Vocabulary of the statements *)

Global Instance outcome_fmap : FMap outcome := λ A B f o,
  match o with
  | Return a => Return (f a)
  | Raise e => Raise e
  end.

(** The loop body ran on rows [i], [i+1], ..., [i+n-1], in this order. *)
Definition visits (c : catalog) (i n : nat) : list event :=
  EvVisit c <$> seq i n.

(** The first row of the table, in table order, whose box holds the point,
    with its index. *)
Definition first_match (ra dec : Q) (table : Table) : option (nat * Row) :=
  list_find (λ r, in_box r ra dec = true) table.

(** How many rows a loop runs on: up to and including the first match. *)
Definition rows_visited (ra dec : Q) (table : Table) : nat :=
  match first_match ra dec table with
  | Some (k, _) => S k
  | None => length table
  end.

(** The resource identifier as the spec's template writes it:
    [{base_url}/dr{data_release}/{hemisphere}/tractor/{ra1_int:03d}/tractor-{brickname}.fits]. *)
Definition resource_identifier (base_url : string) (data_release : Z)
    (hemisphere : string) (r : Row) : string :=
  base_url +:+ "/dr" +:+ pretty data_release +:+ "/" +:+ hemisphere
  +:+ "/tractor/" +:+ format_03 (int (ra1 r)) +:+ "/tractor-"
  +:+ brickname r +:+ ".fits".

(** A request that leaves the process. *)
Definition is_fetch (ev : event) : bool :=
  match ev with
  | EvGet _ | EvRequest _ _ _ _ _ => true
  | _ => false
  end.

(** Three decimal digits of a number below 1000. *)
Definition three_digits (n : Z) : string :=
  String (pretty_N_char (Z.to_N (n / 100)))
    (String (pretty_N_char (Z.to_N ((n / 10) mod 10)))
       (String (pretty_N_char (Z.to_N (n mod 10))) "")).

(** The claim that the south loop does not run, as a test on a log. *)
Definition south_scanned (evs : list event) : bool :=
  existsb (λ ev, match ev with EvVisit TableSouth _ => true | _ => false end)
    evs.

(** ** Concrete catalogs and environments

    The inputs of the scenarios: the instance with the server of the
    survey, an environment that serves two given catalogs, and a few
    bricks. *)

Definition survey : LegacySurveyClass :=
  {| URL := "https://portal.nersc.gov/cfs/cosmo/data/legacysurvey";
     TIMEOUT := 60 |}.

Definition start : state := {| files := ∅; log := [] |}.

Definition bricks_north_gz : Response :=
  {| status_code := 200; content := [Byte.x01] |}.
Definition bricks_south_gz : Response :=
  {| status_code := 200; content := [Byte.x02] |}.
Definition tractor_fits : Response :=
  {| status_code := 200; content := [Byte.x03] |}.
Definition not_a_fits_file : Response :=
  {| status_code := 200; content := [Byte.x3c; Byte.x68; Byte.x31; Byte.x3e] |}.

(** Serves [north] and [south] as the two survey-bricks files of release 9
    of [survey], and [tractor_fits] at every other address. *)
Definition serving (north south : Table) : World :=
  {| requests_get := λ url,
       if String.eqb url
            (URL survey +:+ "/dr9/north/survey-bricks-dr9-north.fits.gz")
       then Return bricks_north_gz
       else if String.eqb url
            (URL survey +:+ "/dr9/south/survey-bricks-dr9-south.fits.gz")
       then Return bricks_south_gz
       else Return tractor_fits;
     base_request := λ _ _ _ _ _, Return tractor_fits;
     table_read := λ data _,
       match data with
       | [Byte.x01] => Return north
       | [Byte.x02] => Return south
       | _ => Raise (ValueError "No SIMPLE card found, this file does not appear to be a valid FITS file")
       end |}.

(** The state after [query_brick_list] ran for north, and for both. *)
Definition after_north (W : World) : state :=
  (query_brick_list W survey 9 "north" start).2.
Definition after_south (W : World) : state :=
  (query_brick_list W survey 9 "south" (after_north W)).2.

(** The state once [data] has been written to the file [path]. *)
Definition with_file (path : string) (data : list Byte.byte) (s : state)
    : state :=
  {| files := <[path := data]> (files s); log := log s |}.

(** Right ascension in [0, 360] and declination in [-90, 90]: a box that
    lies on the sphere, and a point that does not. *)
Definition in_range (r : Row) : Prop :=
  (0 <= ra1 r)%Q ∧ (ra2 r <= 360)%Q ∧ (-90 <= dec1 r)%Q ∧ (dec2 r <= 90)%Q.

Definition out_of_range (c : SkyCoord) : Prop :=
  (ra_deg c < 0)%Q ∨ (360 < ra_deg c)%Q
  ∨ (dec_deg c < -90)%Q ∨ (90 < dec_deg c)%Q.

Definition in_0001m002 : SkyCoord := {| ra_deg := 1 # 2; dec_deg := 0 |}.
Definition in_0105p000 : SkyCoord := {| ra_deg := 21 # 2; dec_deg := 0 |}.
Definition in_no_brick : SkyCoord := {| ra_deg := 5; dec_deg := 0 |}.
Definition one_turn_later : SkyCoord := {| ra_deg := 721 # 2; dec_deg := 0 |}.
Definition in_1000p005 : SkyCoord := {| ra_deg := 2001 # 2; dec_deg := 1 # 2 |}.

Definition brick_0001m002 : Row :=
  {| brickname := "0001m002"; ra1 := 0; ra2 := 1;
     dec1 := -5 # 10; dec2 := 5 # 10 |}.
Definition brick_0005m002 : Row :=
  {| brickname := "0005m002"; ra1 := 2 # 10; ra2 := 8 # 10;
     dec1 := -5 # 10; dec2 := 5 # 10 |}.
Definition brick_0105p000 : Row :=
  {| brickname := "0105p000"; ra1 := 10; ra2 := 11;
     dec1 := -1 # 4; dec2 := 1 # 4 |}.
Definition brick_1000p005 : Row :=
  {| brickname := "1000p005"; ra1 := 1000; ra2 := 1001;
     dec1 := 0; dec2 := 1 |}.

(** The spec's scenario; both catalogs hold the point (0.5, 0); only the
    south holds (10.5, 0); a north box beyond 360 degrees. *)
Definition north_only : World := serving [brick_0001m002] [].
Definition north_and_south : World :=
  serving [brick_0001m002] [brick_0105p000; brick_0005m002].
Definition south_only : World := serving [brick_0001m002] [brick_0105p000].
Definition beyond_360 : World := serving [brick_1000p005] [].

(** ** Further vocabulary: addresses, logs, failing environments *)

(** The address of a survey-bricks file, as line 151 builds it. *)
Definition bricks_url (base_url : string) (data_release : Z)
    (emisphere : string) : string :=
  base_url +:+ "/dr" +:+ pretty data_release +:+ "/" +:+ emisphere
  +:+ "/survey-bricks-dr" +:+ pretty data_release +:+ "-" +:+ emisphere
  +:+ ".fits.gz".

(** What a successful [query_brick_list] adds to the log. *)
Definition brick_list_log (base_url : string) (data_release : Z)
    (emisphere : string) : list event :=
  [ EvGet (bricks_url base_url data_release emisphere);
    EvPrint "completed fits file request";
    EvSuppressVoWarnings ].

(** A computation that only adds to the log, and one whose first effect,
    whatever happens next, is [ev]. *)
Definition appends {A} (m : M A) : Prop :=
  ∀ s, ∃ evs, log (m s).2 = log s ++ evs.

Definition starts_with {A} (ev : event) (m : M A) : Prop :=
  ∀ s, ∃ evs, log (m s).2 = log s ++ ev :: evs.

(** The number a string of decimal digits writes, most significant digit
    first, continuing from [acc]. *)
Fixpoint decimal_value (acc : N) (digits : string) : N :=
  match digits with
  | "" => acc
  | String c rest =>
      decimal_value (10 * acc + (N_of_ascii c - 48))%N rest
  end.

(** A string without the path separator. *)
Fixpoint no_slash (s : string) : bool :=
  match s with
  | "" => true
  | String c rest => negb (Ascii.eqb c "/") && no_slash rest
  end.

(** The hemisphere and the row that a point selects in two catalogs:
    the first match of the north catalog, else that of the south. *)
Definition selected (ra dec : Q) (table_north table_south : Table)
    : option (string * Row) :=
  match first_match ra dec table_north with
  | Some (_, r) => Some ("north", r)
  | None =>
      match first_match ra dec table_south with
      | Some (_, r) => Some ("south", r)
      | None => None
      end
  end.

Definition also_in_0001m002 : SkyCoord :=
  {| ra_deg := 1 # 4; dec_deg := 1 # 4 |}.

(** No network; a south catalog that cannot be fetched; a north catalog
    that is not a FITS file. *)
Definition offline : World :=
  {| requests_get := λ _, Raise (RequestException "Max retries exceeded");
     base_request := λ _ _ _ _ _,
       Raise (RequestException "Max retries exceeded");
     table_read := table_read north_only |}.

Definition south_down : World :=
  {| requests_get := λ url,
       if String.eqb url (bricks_url (URL survey) 9 "south")
       then Raise (RequestException "Max retries exceeded")
       else requests_get north_only url;
     base_request := base_request north_only;
     table_read := table_read north_only |}.

Definition garbled_north : World :=
  {| requests_get := λ url,
       if String.eqb url (bricks_url (URL survey) 9 "north")
       then Return not_a_fits_file
       else requests_get north_only url;
     base_request := base_request north_only;
     table_read := table_read north_only |}.

(** A second row for the brick 0001m002, with other bounds. *)
Definition brick_0001m002_narrow : Row :=
  {| brickname := "0001m002"; ra1 := 1 # 4; ra2 := 3 # 4;
     dec1 := -1 # 4; dec2 := 1 # 4 |}.
Definition brick_m0005m002 : Row :=
  {| brickname := "m0005m002"; ra1 := -5 # 10; ra2 := 5 # 10;
     dec1 := -5 # 10; dec2 := 5 # 10 |}.
Definition two_in_south : World :=
  serving [brick_0105p000] [brick_1000p005; brick_0001m002; brick_0005m002].

(** ** The monad and the log *)

Lemma add_log_nil s : add_log [] s = s.
Proof. destruct s as [f l]. unfold add_log; simpl. by rewrite app_nil_r. Qed.

Lemma add_log_add_log evs1 evs2 s :
  add_log evs2 (add_log evs1 s) = add_log (evs1 ++ evs2) s.
Proof. unfold add_log; simpl. by rewrite app_assoc. Qed.

Lemma visits_cons c i n : visits c i (S n) = EvVisit c i :: visits c (S i) n.
Proof. reflexivity. Qed.

Lemma visits_elem c c' i n j :
  EvVisit c' j ∈ visits c i n ↔ c' = c ∧ i ≤ j < i + n.
Proof.
  unfold visits. rewrite list_elem_of_fmap. split.
  - intros (k & Heq & Hk). injection Heq as -> ->.
    apply list_elem_of_In, in_seq in Hk. done.
  - intros [-> Hj]. exists j. split; [done|].
    apply list_elem_of_In, in_seq. done.
Qed.

Lemma visits_no_fetch c i n : forallb (negb ∘ is_fetch) (visits c i n) = true.
Proof.
  revert i. induction n as [|n IH]; intros i; [done|].
  rewrite visits_cons. simpl. apply IH.
Qed.

(** ** The box test *)

Lemma in_box_spec r ra dec :
  in_box r ra dec = true ↔
  (ra1 r <= ra)%Q ∧ (ra <= ra2 r)%Q ∧ (dec1 r <= dec)%Q ∧ (dec <= dec2 r)%Q.
Proof.
  unfold in_box. rewrite !andb_true_iff, !Qle_bool_iff. tauto.
Qed.

Lemma in_box_false r ra dec :
  in_box r ra dec = false ↔
  ¬ ((ra1 r <= ra)%Q ∧ (ra <= ra2 r)%Q ∧ (dec1 r <= dec)%Q ∧ (dec <= dec2 r)%Q).
Proof. rewrite <- in_box_spec. destruct (in_box r ra dec); split; auto; congruence. Qed.

(** ** The loop *)

Lemma first_match_Some ra dec table k r :
  first_match ra dec table = Some (k, r) ↔
  table !! k = Some r ∧ in_box r ra dec = true ∧
  ∀ m rm, m < k → table !! m = Some rm → in_box rm ra dec = false.
Proof.
  unfold first_match. rewrite list_find_Some. split.
  - intros (Hk & Hin & Hmin). split_and!; [done..|].
    intros m rm Hm Hrm. specialize (Hmin m rm Hrm Hm).
    by destruct (in_box rm ra dec).
  - intros (Hk & Hin & Hmin). split_and!; [done..|].
    intros m rm Hrm Hm. rewrite (Hmin m rm Hm Hrm). done.
Qed.

Lemma first_match_None ra dec table :
  first_match ra dec table = None ↔
  Forall (λ r, in_box r ra dec = false) table.
Proof.
  unfold first_match. rewrite list_find_None. apply Forall_iff.
  intros r. by destruct (in_box r ra dec).
Qed.

(** The loop computes [first_match] and runs on [rows_visited] rows. *)
Lemma scan_spec c ra dec table i s :
  scan c ra dec i table s
  = (Return (snd <$> first_match ra dec table),
     add_log (visits c i (rows_visited ra dec table)) s).
Proof.
  revert i s. induction table as [|r rest IH]; intros i s.
  - simpl. by rewrite add_log_nil.
  - unfold rows_visited, first_match in *. simpl.
    unfold mbind, M_bind, emit. destruct (in_box r ra dec) eqn:Hr.
    + rewrite decide_True by done. done.
    + rewrite decide_False by done. rewrite IH, add_log_add_log.
      destruct (list_find _ rest) as [[k r']|]; done.
Qed.

(** A row that holds the point gives a first match at or before it. *)
Lemma first_match_exists ra dec table i ri :
  table !! i = Some ri → in_box ri ra dec = true →
  ∃ k r, k ≤ i ∧ first_match ra dec table = Some (k, r).
Proof.
  intros Hi Hin. destruct (first_match ra dec table) as [[k r]|] eqn:Hfm.
  - exists k, r. split; [|done].
    apply first_match_Some in Hfm as (_ & _ & Hmin).
    destruct (decide (k ≤ i)) as [|Hgt]; [done|].
    rewrite (Hmin i ri) in Hin by (done || lia). done.
  - apply first_match_None in Hfm.
    rewrite Forall_lookup in Hfm. rewrite (Hfm i ri Hi) in Hin. done.
Qed.

(** ** The region query, once both catalogs are there *)

Lemma call_requests_get_Some W url s :
  (response ← call_requests_get W url; mret (Some response)) s
  = (Some <$> requests_get W url, add_log [EvGet url] s).
Proof.
  unfold mbind, M_bind, call_requests_get.
  by destruct (requests_get W url).
Qed.

Lemma query_region_async_run W self coordinates radius get_query_payload cache
    data_release table_north table_south s s1 s2 :
  query_brick_list W self data_release "north" s = (Return table_north, s1) →
  query_brick_list W self data_release "south" s1 = (Return table_south, s2) →
  let ra := ra_deg coordinates in
  let dec := dec_deg coordinates in
  let s3 := add_log (visits TableNorth 0 (rows_visited ra dec table_north)
                     ++ visits TableSouth 0 (rows_visited ra dec table_south))
              s2 in
  query_region_async W self coordinates radius get_query_payload cache
    data_release s
  = match first_match ra dec table_north, first_match ra dec table_south with
    | Some (_, r), _ =>
        let url := resource_identifier (URL self) data_release "north" r in
        (Some <$> requests_get W url, add_log [EvGet url] s3)
    | None, Some (_, r) =>
        let url := resource_identifier (URL self) data_release "south" r in
        (Some <$> requests_get W url, add_log [EvGet url] s3)
    | None, None => (Return None, s3)
    end.
Proof.
  intros Hnorth Hsouth ra dec s3. unfold query_region_async.
  unfold mbind at 1, M_bind at 1. rewrite Hnorth.
  unfold mbind at 1, M_bind at 1. rewrite Hsouth.
  unfold mbind at 1, M_bind at 1. rewrite scan_spec.
  unfold mbind at 1, M_bind at 1. rewrite scan_spec, add_log_add_log.
  fold ra dec s3.
  destruct (first_match ra dec table_north) as [[kn rn]|];
    destruct (first_match ra dec table_south) as [[ks rs]|]; simpl;
    try apply call_requests_get_Some; done.
Qed.

(** Hypotheses on concrete inputs are settled by evaluation. *)
Ltac break_up :=
  repeat match goal with
         | |- Forall _ [] => apply Forall_nil_2
         | |- Forall _ (_ :: _) => apply Forall_cons_2
         | |- Forall _ (_ ++ _) => apply Forall_app_2
         | |- _ ∧ _ => split
         | |- ∀ _, _ => intro
         end.

Ltac by_evaluation :=
  break_up; vm_compute; break_up;
  try reflexivity; try discriminate; try lia.

(** ** The box test (C3) *)

(** C3: a record matches a query point exactly when
    [ra1 <= ra <= ra2] and [dec1 <= dec <= dec2]; the four bounds are
    inclusive. *)
Theorem in_box_inclusive r ra dec :
  in_box r ra dec = true ↔
  ((ra1 r <= ra)%Q ∧ (ra <= ra2 r)%Q) ∧ ((dec1 r <= dec)%Q ∧ (dec <= dec2 r)%Q).
Proof. rewrite in_box_spec. tauto. Qed.

(** The corners of a box, which lie on two bounds each, are in the box. *)
Lemma in_box_corners r :
  (ra1 r <= ra2 r)%Q → (dec1 r <= dec2 r)%Q →
  in_box r (ra1 r) (dec1 r) = true ∧ in_box r (ra2 r) (dec2 r) = true
  ∧ in_box r (ra1 r) (dec2 r) = true ∧ in_box r (ra2 r) (dec1 r) = true.
Proof.
  intros Hra Hdec. rewrite !in_box_spec.
  pose proof (Qle_refl (ra1 r)). pose proof (Qle_refl (ra2 r)).
  pose proof (Qle_refl (dec1 r)). pose proof (Qle_refl (dec2 r)). tauto.
Qed.

Example on_the_boundary :
  in_box brick_0001m002 1 (5 # 10) = true
  ∧ in_box brick_0001m002 0 (-5 # 10) = true
  ∧ in_box brick_0001m002 (1000001 # 1000000) 0 = false.
Proof. by_evaluation. Qed.

(** ** One catalog: the first match in table order (C2) *)

(** C2: within one catalog the loop runs on the rows in table order and
    stops at the first row whose box holds the point, which it selects.
    When row [i] holds the point, the selected row is at some [k <= i], no
    row before [k] holds the point, the loop ran on rows [0..k] in this
    order, and no later row [j > i] (in particular a second, overlapping
    one) is reached: the row of lower index wins. *)
Theorem scan_selects_first_match c ra dec (table : Table) i ri s :
  table !! i = Some ri → in_box ri ra dec = true →
  ∃ k r,
    k ≤ i ∧ table !! k = Some r ∧ in_box r ra dec = true
    ∧ (∀ m rm, m < k → table !! m = Some rm → in_box rm ra dec = false)
    ∧ scan c ra dec 0 table s
      = (Return (Some r), add_log (visits c 0 (S k)) s)
    ∧ ∀ j rj, i < j → table !! j = Some rj → in_box rj ra dec = true →
        k < j ∧ EvVisit c j ∉ visits c 0 (S k).
Proof.
  intros Hi Hin.
  destruct (first_match_exists ra dec table i ri Hi Hin) as (k & r & Hk & Hfm).
  exists k, r. pose proof Hfm as (Hlook & Hbox & Hmin)%first_match_Some.
  split_and!; try done.
  - rewrite scan_spec. unfold rows_visited. by rewrite Hfm.
  - intros j rj Hj _ _. split; [lia|]. rewrite visits_elem. lia.
Qed.

Lemma scan_selects_first_match_witness :
  ∃ k r,
    k ≤ 1 ∧ [brick_0105p000; brick_0001m002; brick_0005m002] !! k = Some r
    ∧ in_box r (1 # 2) 0 = true
    ∧ (∀ m rm, m < k →
         [brick_0105p000; brick_0001m002; brick_0005m002] !! m = Some rm →
         in_box rm (1 # 2) 0 = false)
    ∧ scan TableNorth (1 # 2) 0 0
        [brick_0105p000; brick_0001m002; brick_0005m002] start
      = (Return (Some r), add_log (visits TableNorth 0 (S k)) start)
    ∧ ∀ j rj, 1 < j →
        [brick_0105p000; brick_0001m002; brick_0005m002] !! j = Some rj →
        in_box rj (1 # 2) 0 = true →
        k < j ∧ EvVisit TableNorth j ∉ visits TableNorth 0 (S k).
Proof.
  apply (scan_selects_first_match TableNorth (1 # 2) 0
           [brick_0105p000; brick_0001m002; brick_0005m002] 1 brick_0001m002
           start); reflexivity.
Defined.

Example overlapping_boxes :
  scan TableNorth (1 # 2) 0 0 [brick_0001m002; brick_0005m002] start
  = (Return (Some brick_0001m002), add_log [EvVisit TableNorth 0] start)
  ∧ scan TableNorth (1 # 2) 0 0 [brick_0005m002; brick_0001m002] start
  = (Return (Some brick_0005m002), add_log [EvVisit TableNorth 0] start).
Proof. by_evaluation. Qed.

(** ** Two catalogs: north before south (C1, C6, C4, C8) *)

(** In the statements below [s1] and [s2] are the states after the first
    and the second call of [query_brick_list], which returned the catalogs
    [table_north] and [table_south]. *)

(** C1, as the code has it: when some north row holds the point, the call
    fetches the resource of the first such row, of index [k], and its
    outcome is that of the fetch.  The south loop runs all the same, after
    the north loop and up to its own first match, but what it finds is not
    used: the one request is for the north resource. *)
Theorem north_match_wins W self coordinates radius get_query_payload cache
    data_release (table_north table_south : Table) s s1 s2 i ri :
  query_brick_list W self data_release "north" s = (Return table_north, s1) →
  query_brick_list W self data_release "south" s1 = (Return table_south, s2) →
  table_north !! i = Some ri →
  in_box ri (ra_deg coordinates) (dec_deg coordinates) = true →
  ∃ k r,
    k ≤ i
    ∧ first_match (ra_deg coordinates) (dec_deg coordinates) table_north
      = Some (k, r)
    ∧ let url := resource_identifier (URL self) data_release "north" r in
      query_region_async W self coordinates radius get_query_payload cache
        data_release s
      = (Some <$> requests_get W url,
         add_log (visits TableNorth 0 (S k)
                  ++ visits TableSouth 0
                       (rows_visited (ra_deg coordinates)
                          (dec_deg coordinates) table_south)
                  ++ [EvGet url]) s2).
Proof.
  intros Hnorth Hsouth Hi Hin.
  destruct (first_match_exists _ _ table_north i ri Hi Hin)
    as (k & r & Hk & Hfm).
  exists k, r. split_and!; [done..|].
  rewrite (query_region_async_run _ _ _ _ _ _ _ _ _ _ _ _ Hnorth Hsouth).
  unfold rows_visited at 1. rewrite Hfm. cbv beta iota zeta.
  by rewrite add_log_add_log, <- app_assoc.
Qed.

(** C6: when no north row holds the point and exactly one south row, of
    index [j], does, the call fetches the resource of that row under
    [south], and its outcome is that of the fetch. *)
Theorem south_match_when_north_misses W self coordinates radius
    get_query_payload cache data_release (table_north table_south : Table)
    s s1 s2 j r :
  query_brick_list W self data_release "north" s = (Return table_north, s1) →
  query_brick_list W self data_release "south" s1 = (Return table_south, s2) →
  Forall (λ r', in_box r' (ra_deg coordinates) (dec_deg coordinates) = false)
    table_north →
  table_south !! j = Some r →
  in_box r (ra_deg coordinates) (dec_deg coordinates) = true →
  (∀ j' r', table_south !! j' = Some r' →
            in_box r' (ra_deg coordinates) (dec_deg coordinates) = true →
            j' = j) →
  let url := resource_identifier (URL self) data_release "south" r in
  query_region_async W self coordinates radius get_query_payload cache
    data_release s
  = (Some <$> requests_get W url,
     add_log (visits TableNorth 0 (length table_north)
              ++ visits TableSouth 0 (S j) ++ [EvGet url]) s2).
Proof.
  intros Hnorth Hsouth Hmiss Hj Hin Huniq url.
  assert (first_match (ra_deg coordinates) (dec_deg coordinates) table_south
          = Some (j, r)) as Hfs.
  { apply first_match_Some. split_and!; [done..|].
    intros m rm Hm Hrm.
    destruct (in_box rm (ra_deg coordinates) (dec_deg coordinates)) eqn:Hbox;
      [|done].
    specialize (Huniq m rm Hrm Hbox). lia. }
  apply first_match_None in Hmiss.
  rewrite (query_region_async_run _ _ _ _ _ _ _ _ _ _ _ _ Hnorth Hsouth).
  unfold rows_visited. rewrite Hmiss, Hfs. cbv beta iota zeta.
  by rewrite add_log_add_log, <- app_assoc.
Qed.

(** C4: when no row of either catalog holds the point, the call returns
    [None]; it does not raise, and after the catalogs are there it only
    runs the two loops over all rows: no request is made. *)
Theorem no_match_returns_None W self coordinates radius get_query_payload
    cache data_release (table_north table_south : Table) s s1 s2 :
  query_brick_list W self data_release "north" s = (Return table_north, s1) →
  query_brick_list W self data_release "south" s1 = (Return table_south, s2) →
  Forall (λ r, in_box r (ra_deg coordinates) (dec_deg coordinates) = false)
    table_north →
  Forall (λ r, in_box r (ra_deg coordinates) (dec_deg coordinates) = false)
    table_south →
  let evs := visits TableNorth 0 (length table_north)
             ++ visits TableSouth 0 (length table_south) in
  query_region_async W self coordinates radius get_query_payload cache
    data_release s
  = (Return None, add_log evs s2)
  ∧ forallb (negb ∘ is_fetch) evs = true.
Proof.
  intros Hnorth Hsouth Hn%first_match_None Hs%first_match_None evs. split.
  - rewrite (query_region_async_run _ _ _ _ _ _ _ _ _ _ _ _ Hnorth Hsouth).
    unfold rows_visited. by rewrite Hn, Hs.
  - unfold evs. rewrite forallb_app, !visits_no_fetch. done.
Qed.

Lemma north_match_wins_witness :
  ∃ k r,
    k ≤ 0
    ∧ first_match (ra_deg in_0001m002) (dec_deg in_0001m002) [brick_0001m002]
      = Some (k, r)
    ∧ let url := resource_identifier (URL survey) 9 "north" r in
      query_region_async north_and_south survey in_0001m002 3 false true 9
        start
      = (Some <$> requests_get north_and_south url,
         add_log (visits TableNorth 0 (S k)
                  ++ visits TableSouth 0
                       (rows_visited (ra_deg in_0001m002) (dec_deg in_0001m002)
                          [brick_0105p000; brick_0005m002])
                  ++ [EvGet url]) (after_south north_and_south)).
Proof.
  apply (north_match_wins north_and_south survey in_0001m002 3 false true 9
           [brick_0001m002] [brick_0105p000; brick_0005m002] start
           (after_north north_and_south) (after_south north_and_south)
           0 brick_0001m002); by_evaluation.
Defined.

(** C1 as the spec words it fails: the point (0.5, 0) is in the north brick
    0001m002, the call returns the north resource, and the south loop has
    run, on the rows 0 and 1 of the south catalog. *)
Lemma north_match_south_still_scanned :
  in_box brick_0001m002 (ra_deg in_0001m002) (dec_deg in_0001m002) = true
  ∧ query_brick_list north_and_south survey 9 "north" start
    = (Return [brick_0001m002], after_north north_and_south)
  ∧ query_brick_list north_and_south survey 9 "south"
      (after_north north_and_south)
    = (Return [brick_0105p000; brick_0005m002], after_south north_and_south)
  ∧ (query_region_async north_and_south survey in_0001m002 3 false true 9
       start).1 = Return (Some tractor_fits)
  ∧ south_scanned
      (log (query_region_async north_and_south survey in_0001m002 3 false
              true 9 start).2) = true.
Proof. by_evaluation. Qed.

Example north_and_south_log :
  log (query_region_async north_and_south survey in_0001m002 3 false true 9
         start).2
  = [ EvGet "https://portal.nersc.gov/cfs/cosmo/data/legacysurvey/dr9/north/survey-bricks-dr9-north.fits.gz";
      EvPrint "completed fits file request";
      EvSuppressVoWarnings;
      EvGet "https://portal.nersc.gov/cfs/cosmo/data/legacysurvey/dr9/south/survey-bricks-dr9-south.fits.gz";
      EvPrint "completed fits file request";
      EvSuppressVoWarnings;
      EvVisit TableNorth 0;
      EvVisit TableSouth 0;
      EvVisit TableSouth 1;
      EvGet "https://portal.nersc.gov/cfs/cosmo/data/legacysurvey/dr9/north/tractor/000/tractor-0001m002.fits" ].
Proof. by_evaluation. Qed.

Lemma south_match_when_north_misses_witness :
  let url := resource_identifier (URL survey) 9 "south" brick_0105p000 in
  query_region_async south_only survey in_0105p000 3 false true 9 start
  = (Some <$> requests_get south_only url,
     add_log (visits TableNorth 0 (length [brick_0001m002])
              ++ visits TableSouth 0 1 ++ [EvGet url])
       (after_south south_only)).
Proof.
  apply (south_match_when_north_misses south_only survey in_0105p000 3 false
           true 9 [brick_0001m002] [brick_0105p000] start
           (after_north south_only) (after_south south_only)
           0 brick_0105p000); [by_evaluation..|].
  intros [|j'] r' Hr' _; [reflexivity | discriminate Hr'].
Defined.

Example south_only_log :
  query_region_async south_only survey in_0105p000 3 false true 9 start
  = (Return (Some tractor_fits),
     add_log [ EvVisit TableNorth 0; EvVisit TableSouth 0;
               EvGet "https://portal.nersc.gov/cfs/cosmo/data/legacysurvey/dr9/south/tractor/010/tractor-0105p000.fits" ]
       (after_south south_only)).
Proof. by_evaluation. Qed.

Lemma no_match_returns_None_witness :
  let evs := visits TableNorth 0 (length [brick_0001m002])
             ++ visits TableSouth 0 (length (@nil Row)) in
  query_region_async north_only survey in_no_brick 3 false true 9 start
  = (Return None, add_log evs (after_south north_only))
  ∧ forallb (negb ∘ is_fetch) evs = true.
Proof.
  apply (no_match_returns_None north_only survey in_no_brick 3 false true 9
           [brick_0001m002] [] start (after_north north_only)
           (after_south north_only)); by_evaluation.
Defined.

(** ** Raw coordinates (C8) *)

(** A box on the sphere does not hold a point off the sphere. *)
Lemma out_of_range_excluded c r :
  out_of_range c → in_range r → in_box r (ra_deg c) (dec_deg c) = false.
Proof.
  intros Hout (Hra1 & Hra2 & Hdec1 & Hdec2).
  apply in_box_false. intros (H1 & H2 & H3 & H4).
  destruct Hout as [Hout|[Hout|[Hout|Hout]]]; lra.
Qed.

(** C8: the coordinates are compared as they come, with no reduction to
    [0, 360) or [-90, 90].  When every box of both catalogs excludes the
    point as given (as every box on the sphere does for a point off the
    sphere, such as one with [ra > 360]), both loops run over all rows and
    the call returns [None]. *)
Theorem raw_coordinates_no_match W self coordinates radius get_query_payload
    cache data_release (table_north table_south : Table) s s1 s2 :
  query_brick_list W self data_release "north" s = (Return table_north, s1) →
  query_brick_list W self data_release "south" s1 = (Return table_south, s2) →
  Forall (λ r, in_box r (ra_deg coordinates) (dec_deg coordinates) = false)
    (table_north ++ table_south)
  ∨ (out_of_range coordinates ∧ Forall in_range (table_north ++ table_south)) →
  query_region_async W self coordinates radius get_query_payload cache
    data_release s
  = (Return None,
     add_log (visits TableNorth 0 (length table_north)
              ++ visits TableSouth 0 (length table_south)) s2).
Proof.
  intros Hnorth Hsouth Hexcl.
  assert (Forall (λ r, in_box r (ra_deg coordinates) (dec_deg coordinates)
                       = false) (table_north ++ table_south)) as Hall.
  { destruct Hexcl as [Hall|[Hout Hin]]; [done|].
    eapply Forall_impl; [exact Hin|]. intros r Hr.
    by apply out_of_range_excluded. }
  apply Forall_app in Hall as [Hn%first_match_None Hs%first_match_None].
  rewrite (query_region_async_run _ _ _ _ _ _ _ _ _ _ _ _ Hnorth Hsouth).
  unfold rows_visited. by rewrite Hn, Hs.
Qed.

(** The point (360.5, 0) is the point (0.5, 0) of brick 0001m002 one turn
    later; it is looked up as 360.5 and found in no brick. *)
Lemma raw_coordinates_no_match_witness :
  query_region_async north_only survey one_turn_later 3 false true 9 start
  = (Return None,
     add_log (visits TableNorth 0 (length [brick_0001m002])
              ++ visits TableSouth 0 (length (@nil Row)))
       (after_south north_only)).
Proof.
  apply (raw_coordinates_no_match north_only survey one_turn_later 3 false
           true 9 [brick_0001m002] [] start (after_north north_only)
           (after_south north_only)); [by_evaluation..|].
  right. split.
  - right. left. by_evaluation.
  - by_evaluation.
Defined.

Example one_turn_earlier :
  (query_region_async north_only survey in_0001m002 3 false true 9 start).1
  = Return (Some tractor_fits)
  ∧ (ra_deg one_turn_later == ra_deg in_0001m002 + 360)%Q.
Proof. by_evaluation. Qed.

(** ** Parsing a response (C7) *)

(** When [Table.read] returns a table, so does [_parse_result]. *)
Lemma parse_result_table W self response verbose s table :
  table_read W (content response) 1 = Return table →
  _parse_result W self response verbose s
  = (Return table,
     with_file "/tmp/file_content" (content response)
       (if verbose then s else add_log [EvSuppressVoWarnings] s)).
Proof.
  intros Hread. unfold _parse_result, parse_try, try_except_ValueError.
  unfold mbind, M_bind, write_file, Table_read, with_file.
  destruct verbose; simpl; by rewrite lookup_insert_eq, Hread.
Qed.

(** C7: when decoding the response raises a [ValueError], the [try]
    statement of [_parse_result] ends normally: the handler is a bare
    [pass], so the error is dropped, nothing is logged or raised in its
    place, and the local [table] is left unbound.  [return table] is then
    evaluated on the unbound name, which Python reports as
    [UnboundLocalError]; the [ValueError] and its message are gone. *)
Theorem parse_result_discards_ValueError W self response verbose s msg :
  table_read W (content response) 1 = Raise (ValueError msg) →
  parse_try W response s
  = (Return None, with_file "/tmp/file_content" (content response) s)
  ∧ _parse_result W self response verbose s
    = (Raise (UnboundLocalError "table"),
       with_file "/tmp/file_content" (content response)
         (if verbose then s else add_log [EvSuppressVoWarnings] s)).
Proof.
  intros Hread.
  assert (∀ s', parse_try W response s'
                = (Return None,
                   with_file "/tmp/file_content" (content response) s'))
    as Htry.
  { intros s'. unfold parse_try, try_except_ValueError.
    unfold mbind, M_bind, write_file, Table_read, with_file. simpl.
    by rewrite lookup_insert_eq, Hread. }
  split; [apply Htry|].
  unfold _parse_result. unfold mbind at 1, M_bind at 1.
  destruct verbose; simpl; unfold mbind, M_bind; by rewrite Htry.
Qed.

Lemma parse_result_discards_ValueError_witness :
  parse_try north_only not_a_fits_file start
  = (Return None,
     with_file "/tmp/file_content" (content not_a_fits_file) start)
  ∧ _parse_result north_only survey not_a_fits_file false start
    = (Raise (UnboundLocalError "table"),
       with_file "/tmp/file_content" (content not_a_fits_file)
         (add_log [EvSuppressVoWarnings] start)).
Proof.
  apply (parse_result_discards_ValueError north_only survey not_a_fits_file
           false start
           "No SIMPLE card found, this file does not appear to be a valid FITS file").
  reflexivity.
Defined.

(** An exception that is not a [ValueError] is not caught. *)
Lemma parse_result_other_exception W self response verbose s e :
  table_read W (content response) 1 = Raise e → is_ValueError e = false →
  _parse_result W self response verbose s
  = (Raise e,
     with_file "/tmp/file_content" (content response)
       (if verbose then s else add_log [EvSuppressVoWarnings] s)).
Proof.
  intros Hread He. unfold _parse_result, parse_try, try_except_ValueError.
  unfold mbind, M_bind, write_file, Table_read, with_file.
  destruct verbose; simpl; by rewrite lookup_insert_eq, Hread, He.
Qed.

(** ** The object query and the payload (C9, C10) *)

(** C9: [query_object_async] does not use [object_name].  Two calls that
    differ in the name only are the same computation, and without
    [get_query_payload] the call is one [GET] through [_request] to
    [{URL}/dr{data_release}/north/tractor/000/tractor-0001m002.fits], whose
    response it returns. *)
Theorem query_object_async_ignores_object_name W self name1 name2
    get_query_payload cache data_release s :
  query_object_async W self name1 get_query_payload cache data_release s
  = query_object_async W self name2 get_query_payload cache data_release s
  ∧ let url := URL self +:+ "/dr" +:+ pretty data_release
               +:+ "/north/tractor/000/tractor-0001m002.fits" in
    query_object_async W self name1 false cache data_release s
    = (Resp <$> base_request W "GET" url ∅ (TIMEOUT self) cache,
       add_log [EvRequest "GET" url ∅ (TIMEOUT self) cache] s).
Proof.
  split; [reflexivity|]. intros url.
  unfold query_object_async, mbind, M_bind, call_request. fold url.
  by destruct (base_request W "GET" url ∅ (TIMEOUT self) cache).
Qed.

Example query_object_Mrk421 :
  query_object_async north_only survey "Mrk421" false true 9 start
  = (Return (Resp tractor_fits),
     add_log [EvRequest "GET"
                "https://portal.nersc.gov/cfs/cosmo/data/legacysurvey/dr9/north/tractor/000/tractor-0001m002.fits"
                ∅ 60 true] start).
Proof. reflexivity. Qed.

(** C10: with [get_query_payload=True], [query_object_async] and
    [query_brick_list_async] return the empty dict and leave the state as
    it was: nothing is requested, printed or written. *)
Theorem get_query_payload_returns_empty_dict W self object_name cache
    data_release emisphere s :
  query_object_async W self object_name true cache data_release s
  = (Return (Payload ∅), s)
  ∧ query_brick_list_async W self data_release true emisphere cache s
    = (Return (Payload ∅), s).
Proof. split; reflexivity. Qed.

(** ** The resource identifier (C5) *)

Lemma string_length_app (a b : string) :
  String.length (a +:+ b) = String.length a + String.length b.
Proof. induction a as [|ch a IH]; simpl; [done | by rewrite IH]. Qed.

Lemma zeros_length k : String.length (zeros k) = k.
Proof. induction k as [|k IH]; simpl; [done | by rewrite IH]. Qed.

(** The width given to the format is a lower bound. *)
Lemma format_03_length n : 3 ≤ String.length (format_03 n).
Proof.
  unfold format_03. rewrite !string_length_app, zeros_length.
  destruct (n <? 0)%Z; simpl; lia.
Qed.

Lemma format_03_below_1000 :
  forallb (λ k, String.eqb (format_03 (Z.of_nat k))
                  (three_digits (Z.of_nat k))) (seq 0 1000) = true.
Proof. vm_compute. reflexivity. Qed.

(** From 0 to 999 the format is the three decimal digits. *)
Lemma format_03_three_digits n :
  (0 ≤ n < 1000)%Z → format_03 n = three_digits n.
Proof.
  intros Hn. pose proof format_03_below_1000 as Hall.
  rewrite forallb_forall in Hall.
  specialize (Hall (Z.to_nat n)). rewrite Z2Nat.id in Hall by lia.
  apply String.eqb_eq, Hall, in_seq. lia.
Qed.

(** [int] of a float that is not negative is its integer part. *)
Lemma int_integer_part q :
  (0 <= q)%Q →
  (0 ≤ int q)%Z ∧ (inject_Z (int q) <= q)%Q ∧ (q < inject_Z (int q + 1))%Q.
Proof.
  destruct q as [a b]. unfold int, Qle, Qlt, inject_Z. simpl. intros Ha.
  rewrite Z.quot_div_nonneg by lia.
  pose proof (Z.mul_div_le a (Z.pos b)).
  pose proof (Z.mul_succ_div_gt a (Z.pos b)).
  pose proof (Z.div_pos a (Z.pos b)). lia.
Qed.

Lemma int_below q bound : (0 <= q)%Q → (q < inject_Z bound)%Q → (int q < bound)%Z.
Proof.
  destruct q as [a b]. unfold int, Qle, Qlt, inject_Z. simpl. intros Ha Hb.
  rewrite Z.quot_div_nonneg by lia.
  apply Z.div_lt_upper_bound; lia.
Qed.

Example ra1_int_examples :
  format_03 (int (17 # 10)) = "001" ∧ format_03 (int (1239 # 10)) = "123"
  ∧ format_03 (int 0) = "000" ∧ format_03 (int (3599 # 10)) = "359"
  ∧ format_03 (int (-17 # 10)) = "-01" ∧ format_03 (int 1000) = "1000".
Proof. by_evaluation. Qed.

(** C5: the address that [query_region_async] fetches for the matched row
    is the template
    [{base_url}/dr{data_release}/{hemisphere}/tractor/{ra1_int}/tractor-{brickname}.fits],
    a function of the release, the hemisphere and the row (and the server
    of the instance) alone.  For a row on the sphere, [ra1_int] is exactly
    three decimal digits: those of the integer part of [ra1], which lies
    between 0 and 360, with zeros in front.  So [ra1 = 1.7] gives [001] and
    [ra1 = 123.9] gives [123]. *)
Theorem resource_identifier_three_digits W self coordinates radius
    get_query_payload cache data_release (table_north table_south : Table)
    s s1 s2 hemisphere k r :
  query_brick_list W self data_release "north" s = (Return table_north, s1) →
  query_brick_list W self data_release "south" s1 = (Return table_south, s2) →
  (hemisphere = "north"
   ∧ first_match (ra_deg coordinates) (dec_deg coordinates) table_north
     = Some (k, r))
  ∨ (hemisphere = "south"
     ∧ first_match (ra_deg coordinates) (dec_deg coordinates) table_north
       = None
     ∧ first_match (ra_deg coordinates) (dec_deg coordinates) table_south
       = Some (k, r)) →
  in_range r →
  let ra1_int := int (ra1 r) in
  let url := URL self +:+ "/dr" +:+ pretty data_release +:+ "/" +:+ hemisphere
             +:+ "/tractor/" +:+ three_digits ra1_int +:+ "/tractor-"
             +:+ brickname r +:+ ".fits" in
  let run := query_region_async W self coordinates radius get_query_payload
               cache data_release s in
  run.1 = Some <$> requests_get W url
  ∧ last (log run.2) = Some (EvGet url)
  ∧ url = resource_identifier (URL self) data_release hemisphere r
  ∧ String.length (three_digits ra1_int) = 3
  ∧ (0 ≤ ra1_int ≤ 360)%Z
  ∧ (inject_Z ra1_int <= ra1 r)%Q ∧ (ra1 r < inject_Z (ra1_int + 1))%Q
  ∧ format_03 (int (17 # 10)) = "001" ∧ format_03 (int (1239 # 10)) = "123".
Proof.
  intros Hnorth Hsouth Hmatch (Hra1 & Hra2 & _ & _) ra1_int url run.
  assert (in_box r (ra_deg coordinates) (dec_deg coordinates) = true) as Hbox.
  { destruct Hmatch as [[_ Hfm]|(_ & _ & Hfm)];
      by apply first_match_Some in Hfm as (_ & Hbox & _). }
  apply in_box_spec in Hbox as (Hlo & Hhi & _ & _).
  assert (ra1 r < inject_Z 361)%Q as Hbelow.
  { change (inject_Z 361) with 361%Q. lra. }
  destruct (int_integer_part (ra1 r) Hra1) as (Hint & Hle & Hlt).
  pose proof (int_below (ra1 r) 361 Hra1 Hbelow) as Hint'.
  assert (format_03 (int (ra1 r)) = three_digits (int (ra1 r))) as Hfmt.
  { apply format_03_three_digits. lia. }
  assert (url = resource_identifier (URL self) data_release hemisphere r)
    as Hurl.
  { unfold url, resource_identifier, ra1_int. by rewrite Hfmt. }
  split_and!; try done; try (fold ra1_int; lia).
  - unfold run. rewrite Hurl.
    rewrite (query_region_async_run _ _ _ _ _ _ _ _ _ _ _ _ Hnorth Hsouth).
    destruct Hmatch as [[-> Hn]|(-> & Hn & Hs)]; rewrite Hn, ?Hs; done.
  - unfold run. rewrite Hurl.
    rewrite (query_region_async_run _ _ _ _ _ _ _ _ _ _ _ _ Hnorth Hsouth).
    destruct Hmatch as [[-> Hn]|(-> & Hn & Hs)]; rewrite Hn, ?Hs;
      cbv beta iota zeta; unfold add_log at 1; simpl; apply last_snoc.
Qed.

Lemma resource_identifier_three_digits_witness :
  let ra1_int := int (ra1 brick_0105p000) in
  let url := URL survey +:+ "/dr" +:+ pretty 9%Z +:+ "/" +:+ "south"
             +:+ "/tractor/" +:+ three_digits ra1_int +:+ "/tractor-"
             +:+ brickname brick_0105p000 +:+ ".fits" in
  let run := query_region_async south_only survey in_0105p000 3 false true 9
               start in
  run.1 = Some <$> requests_get south_only url
  ∧ last (log run.2) = Some (EvGet url)
  ∧ url = resource_identifier (URL survey) 9 "south" brick_0105p000
  ∧ String.length (three_digits ra1_int) = 3
  ∧ (0 ≤ ra1_int ≤ 360)%Z
  ∧ (inject_Z ra1_int <= ra1 brick_0105p000)%Q
  ∧ (ra1 brick_0105p000 < inject_Z (ra1_int + 1))%Q
  ∧ format_03 (int (17 # 10)) = "001" ∧ format_03 (int (1239 # 10)) = "123".
Proof.
  apply (resource_identifier_three_digits south_only survey in_0105p000 3
           false true 9 [brick_0001m002] [brick_0105p000] start
           (after_north south_only) (after_south south_only) "south" 0
           brick_0105p000); [by_evaluation..| |].
  - right. by_evaluation.
  - by_evaluation.
Defined.

(** The spec's scenario: release 9, the north brick 0001m002, the point
    (0.5, 0). *)
Example scenario_identifier :
  resource_identifier (URL survey) 9 "north" brick_0001m002
  = "https://portal.nersc.gov/cfs/cosmo/data/legacysurvey/dr9/north/tractor/000/tractor-0001m002.fits"
  ∧ last (log (query_region_async north_only survey in_0001m002 3 false true
                 9 start).2)
    = Some (EvGet "https://portal.nersc.gov/cfs/cosmo/data/legacysurvey/dr9/north/tractor/000/tractor-0001m002.fits")
  ∧ last (log (query_region_async south_only survey in_0105p000 3 false true
                 9 start).2)
    = Some (EvGet "https://portal.nersc.gov/cfs/cosmo/data/legacysurvey/dr9/south/tractor/010/tractor-0105p000.fits").
Proof. by_evaluation. Qed.

(** Off the sphere the width of the format is a lower bound only: a row
    with [ra1 = 1000.0], which no survey-bricks table holds, would give the
    directory [1000]. *)
Example ra1_off_the_sphere :
  ¬ in_range brick_1000p005
  ∧ format_03 (int (ra1 brick_1000p005)) = "1000"
  ∧ query_region_async beyond_360 survey in_1000p005 3 false true 9 start
    = (Return (Some tractor_fits),
       add_log [ EvVisit TableNorth 0;
                 EvGet "https://portal.nersc.gov/cfs/cosmo/data/legacysurvey/dr9/north/tractor/1000/tractor-1000p005.fits" ]
         (after_south beyond_360)).
Proof.
  split; [|by_evaluation].
  intros (_ & Hra2 & _). vm_compute in Hra2. by apply Hra2.
Qed.

(** * Beyond the claims *)

(** ** The brick list and the parser, step by step *)

Lemma query_brick_list_async_run W self data_release emisphere cache s :
  query_brick_list_async W self data_release false emisphere cache s
  = let url := bricks_url (URL self) data_release emisphere in
    match requests_get W url with
    | Return r =>
        (Return (Resp r),
         add_log [EvGet url; EvPrint "completed fits file request"] s)
    | Raise e => (Raise e, add_log [EvGet url] s)
    end.
Proof.
  unfold query_brick_list_async, mbind, M_bind, call_requests_get, emit.
  fold (bricks_url (URL self) data_release emisphere).
  destruct (requests_get W _); simpl; [|done].
  by rewrite add_log_add_log.
Qed.

Lemma parse_result_run W self response verbose s :
  _parse_result W self response verbose s
  = (match table_read W (content response) 1 with
     | Return table => Return table
     | Raise e =>
         if is_ValueError e then Raise (UnboundLocalError "table")
         else Raise e
     end,
     with_file "/tmp/file_content" (content response)
       (if verbose then s else add_log [EvSuppressVoWarnings] s)).
Proof.
  unfold _parse_result, parse_try, try_except_ValueError.
  unfold mbind, M_bind, write_file, Table_read, with_file.
  destruct verbose; simpl; rewrite lookup_insert_eq;
    destruct (table_read W (content response) 1) as [t|e]; try done;
    by destruct (is_ValueError e).
Qed.

Lemma with_file_add_log path data evs s :
  with_file path data (add_log evs s) = add_log evs (with_file path data s).
Proof. reflexivity. Qed.

Lemma with_file_with_file path data1 data2 s :
  with_file path data2 (with_file path data1 s) = with_file path data2 s.
Proof. unfold with_file; simpl. by rewrite insert_insert_eq. Qed.

Lemma query_brick_list_run W self data_release emisphere s :
  query_brick_list W self data_release emisphere s
  = let url := bricks_url (URL self) data_release emisphere in
    match requests_get W url with
    | Return r =>
        (match table_read W (content r) 1 with
         | Return table => Return table
         | Raise e =>
             if is_ValueError e then Raise (UnboundLocalError "table")
             else Raise e
         end,
         with_file "/tmp/file_content" (content r)
           (add_log (brick_list_log (URL self) data_release emisphere) s))
    | Raise e => (Raise e, add_log [EvGet url] s)
    end.
Proof.
  unfold query_brick_list. unfold mbind at 1, M_bind at 1.
  rewrite query_brick_list_async_run. cbv zeta.
  destruct (requests_get W _) as [r|e]; [|done].
  rewrite parse_result_run. simpl. by rewrite add_log_add_log.
Qed.

(** ** The brick list request *)

(** X1: when the request for the survey-bricks file fails, the failure goes
    to the caller as it is, whatever [cache] is; the request is the only
    effect, and the completion message is not printed. *)
Theorem brick_list_request_failure W self data_release emisphere cache s e :
  requests_get W (bricks_url (URL self) data_release emisphere) = Raise e →
  query_brick_list_async W self data_release false emisphere cache s
  = (Raise e,
     add_log [EvGet (bricks_url (URL self) data_release emisphere)] s).
Proof.
  intros Hget. rewrite query_brick_list_async_run. cbv zeta.
  by rewrite Hget.
Qed.

Lemma brick_list_request_failure_witness :
  query_brick_list_async offline survey 9 false "north" true start
  = (Raise (RequestException "Max retries exceeded"),
     add_log [EvGet (bricks_url (URL survey) 9 "north")] start).
Proof.
  apply (brick_list_request_failure offline survey 9 "north" true start
           (RequestException "Max retries exceeded")).
  reflexivity.
Defined.

(** ** The parser and its file *)


(** X3: no [ValueError] leaves [_parse_result]: the one the decoder raises
    is caught, and nothing else in the method raises one. *)
Theorem parse_result_never_ValueError W self response verbose s msg :
  (_parse_result W self response verbose s).1 ≠ Raise (ValueError msg).
Proof.
  rewrite parse_result_run. simpl.
  destruct (table_read W (content response) 1) as [t|e]; [done|].
  destruct e; simpl; congruence.
Qed.

(** ** What a call adds to the log *)

Lemma appends_ret {A} (a : A) : appends (mret a).
Proof. intros s. exists []. simpl. by rewrite app_nil_r. Qed.

Lemma appends_bind {A B} (m : M A) (f : A → M B) :
  appends m → (∀ a, appends (f a)) → appends (m ≫= f).
Proof.
  intros Hm Hf s. unfold mbind, M_bind.
  destruct (Hm s) as [evs Hevs]. destruct (m s) as [[a|e] s1]; simpl in *.
  - destruct (Hf a s1) as [evs' Hevs']. exists (evs ++ evs').
    by rewrite Hevs', Hevs, app_assoc.
  - by exists evs.
Qed.

Lemma appends_call_requests_get W url : appends (call_requests_get W url).
Proof. intros s. by exists [EvGet url]. Qed.

Lemma appends_scan c ra dec i table : appends (scan c ra dec i table).
Proof. intros s. rewrite scan_spec. by eexists. Qed.

Lemma starts_with_bind {A B} ev (m : M A) (f : A → M B) :
  starts_with ev m → (∀ a, appends (f a)) → starts_with ev (m ≫= f).
Proof.
  intros Hm Hf s. unfold mbind, M_bind.
  destruct (Hm s) as [evs Hevs]. destruct (m s) as [[a|e] s1]; simpl in *.
  - destruct (Hf a s1) as [evs' Hevs']. exists (evs ++ evs').
    by rewrite Hevs', Hevs, <- app_assoc.
  - by exists evs.
Qed.

Lemma starts_with_query_brick_list W self data_release emisphere :
  starts_with (EvGet (bricks_url (URL self) data_release emisphere))
    (query_brick_list W self data_release emisphere).
Proof.
  intros s. rewrite query_brick_list_run. cbv zeta.
  destruct (requests_get W _); simpl; by eexists.
Qed.

Lemma appends_query_brick_list W self data_release emisphere :
  appends (query_brick_list W self data_release emisphere).
Proof.
  intros s.
  destruct (starts_with_query_brick_list W self data_release emisphere s)
    as [evs Hevs].
  by eexists.
Qed.

(** ** The region query: what it ignores and what it always does *)

(** X4: [query_region_async] uses neither [radius] nor [get_query_payload]
    nor [cache]: calls that differ in them are the same computation.  In
    particular [get_query_payload=True] returns no payload: the first thing
    the call does is still to request the north survey-bricks file. *)
Theorem region_query_ignores_its_options W self coordinates radius radius'
    get_query_payload get_query_payload' cache cache' data_release s :
  query_region_async W self coordinates radius get_query_payload cache
    data_release s
  = query_region_async W self coordinates radius' get_query_payload' cache'
      data_release s
  ∧ ∃ evs,
      log (query_region_async W self coordinates radius true cache
             data_release s).2
      = log s ++ EvGet (bricks_url (URL self) data_release "north") :: evs.
Proof.
  split; [reflexivity|]. revert s.
  change (starts_with (EvGet (bricks_url (URL self) data_release "north"))
            (query_region_async W self coordinates radius true cache
               data_release)).
  unfold query_region_async.
  apply starts_with_bind; [apply starts_with_query_brick_list|].
  intros table_north.
  apply appends_bind; [apply appends_query_brick_list|]. intros table_south.
  apply appends_bind; [apply appends_scan|]. intros row_north.
  apply appends_bind; [apply appends_scan|]. intros row_south.
  destruct row_north as [rn|]; [|destruct row_south as [rs|]];
    try apply appends_ret;
    (apply appends_bind; [apply appends_call_requests_get|]);
    intros response; apply appends_ret.
Qed.

Example payload_flag_still_requests :
  query_region_async offline survey in_0001m002 3 true true 9 start
  = (Raise (RequestException "Max retries exceeded"),
     add_log [EvGet (bricks_url (URL survey) 9 "north")] start).
Proof. by_evaluation. Qed.

(** ** The region query when a catalog cannot be had *)

(** X5: when the north catalog cannot be had, the call ends there with the
    same exception: the south catalog is not requested, no row is visited
    and no resource is fetched. *)
Theorem north_catalog_failure_propagates W self coordinates radius
    get_query_payload cache data_release s s1 e :
  query_brick_list W self data_release "north" s = (Raise e, s1) →
  query_region_async W self coordinates radius get_query_payload cache
    data_release s
  = (Raise e, s1).
Proof.
  intros Hnorth. unfold query_region_async.
  unfold mbind at 1, M_bind at 1. by rewrite Hnorth.
Qed.

Lemma north_catalog_failure_propagates_witness :
  query_region_async offline survey in_0001m002 3 false true 9 start
  = (Raise (RequestException "Max retries exceeded"), after_north offline).
Proof.
  apply (north_catalog_failure_propagates offline survey in_0001m002 3 false
           true 9 start (after_north offline)
           (RequestException "Max retries exceeded")).
  by_evaluation.
Defined.

(** X6: when the south catalog cannot be had, the call raises, whatever the
    north catalog holds: a point that a north brick contains gets no answer
    either, and no row is visited. *)
Theorem south_catalog_failure_propagates W self coordinates radius
    get_query_payload cache data_release (table_north : Table) s s1 s2 e :
  query_brick_list W self data_release "north" s = (Return table_north, s1) →
  query_brick_list W self data_release "south" s1 = (Raise e, s2) →
  query_region_async W self coordinates radius get_query_payload cache
    data_release s
  = (Raise e, s2).
Proof.
  intros Hnorth Hsouth. unfold query_region_async.
  unfold mbind at 1, M_bind at 1. rewrite Hnorth.
  unfold mbind at 1, M_bind at 1. by rewrite Hsouth.
Qed.

Lemma south_catalog_failure_propagates_witness :
  query_region_async south_down survey in_0001m002 3 false true 9 start
  = (Raise (RequestException "Max retries exceeded"), after_south south_down).
Proof.
  apply (south_catalog_failure_propagates south_down survey in_0001m002 3
           false true 9 [brick_0001m002] start (after_north south_down)
           (after_south south_down)
           (RequestException "Max retries exceeded")); by_evaluation.
Defined.

Example south_down_north_would_match :
  first_match (ra_deg in_0001m002) (dec_deg in_0001m002) [brick_0001m002]
  = Some (0, brick_0001m002)
  ∧ log (after_south south_down)
    = brick_list_log (URL survey) 9 "north"
      ++ [EvGet (bricks_url (URL survey) 9 "south")].
Proof. by_evaluation. Qed.

(** X7: a catalog that does not decode.  When the bytes served as the north
    survey-bricks file make the decoder raise a [ValueError], the region
    query raises [UnboundLocalError] for [table], after that one request;
    the bytes are left in [/tmp/file_content]. *)
Theorem region_query_undecodable_catalog W self coordinates radius
    get_query_payload cache data_release s response msg :
  requests_get W (bricks_url (URL self) data_release "north")
  = Return response →
  table_read W (content response) 1 = Raise (ValueError msg) →
  query_region_async W self coordinates radius get_query_payload cache
    data_release s
  = (Raise (UnboundLocalError "table"),
     with_file "/tmp/file_content" (content response)
       (add_log (brick_list_log (URL self) data_release "north") s)).
Proof.
  intros Hget Hread. unfold query_region_async.
  unfold mbind at 1, M_bind at 1. rewrite query_brick_list_run. cbv zeta.
  by rewrite Hget, Hread.
Qed.

Lemma region_query_undecodable_catalog_witness :
  query_region_async garbled_north survey in_0001m002 3 false true 9 start
  = (Raise (UnboundLocalError "table"),
     with_file "/tmp/file_content" (content not_a_fits_file)
       (add_log (brick_list_log (URL survey) 9 "north") start)).
Proof.
  apply (region_query_undecodable_catalog garbled_north survey in_0001m002 3
           false true 9 start not_a_fits_file
           "No SIMPLE card found, this file does not appear to be a valid FITS file");
    reflexivity.
Defined.

(** ** The region query, more about its answer *)

Lemma fmap_Some_not_None (o : outcome Response) : Some <$> o ≠ Return None.
Proof. by destruct o. Qed.

(** X8: [None] means no match and nothing else.  With both catalogs there,
    the call returns [None] exactly when no row of either catalog holds the
    point; a failed fetch of the resource is an exception, never [None]. *)
Theorem region_query_None_iff_no_match W self coordinates radius
    get_query_payload cache data_release (table_north table_south : Table)
    s s1 s2 :
  query_brick_list W self data_release "north" s = (Return table_north, s1) →
  query_brick_list W self data_release "south" s1 = (Return table_south, s2) →
  (query_region_async W self coordinates radius get_query_payload cache
     data_release s).1 = Return None
  ↔ Forall (λ r, in_box r (ra_deg coordinates) (dec_deg coordinates) = false)
      (table_north ++ table_south).
Proof.
  intros Hnorth Hsouth.
  rewrite (query_region_async_run _ _ _ _ _ _ _ _ _ _ _ _ Hnorth Hsouth).
  rewrite Forall_app, <- !first_match_None.
  destruct (first_match _ _ table_north) as [[kn rn]|];
    destruct (first_match _ _ table_south) as [[ks rs]|]; simpl;
    split; try done; try (by intros [??]);
    intros H; by apply fmap_Some_not_None in H.
Qed.

Lemma region_query_None_iff_no_match_witness :
  (query_region_async north_only survey in_no_brick 3 false true 9 start).1
  = Return None
  ↔ Forall (λ r, in_box r (ra_deg in_no_brick) (dec_deg in_no_brick) = false)
      ([brick_0001m002] ++ []).
Proof.
  apply (region_query_None_iff_no_match north_only survey in_no_brick 3 false
           true 9 [brick_0001m002] [] start (after_north north_only)
           (after_south north_only)); by_evaluation.
Defined.

(** X9: several south rows.  When no north row holds the point and the
    south row [j] does, the resource fetched is that of the first south row
    that holds it, at some [k <= j], under [south]; the south loop stops
    there. *)
Theorem first_south_match_wins W self coordinates radius get_query_payload
    cache data_release (table_north table_south : Table) s s1 s2 j rj :
  query_brick_list W self data_release "north" s = (Return table_north, s1) →
  query_brick_list W self data_release "south" s1 = (Return table_south, s2) →
  Forall (λ r, in_box r (ra_deg coordinates) (dec_deg coordinates) = false)
    table_north →
  table_south !! j = Some rj →
  in_box rj (ra_deg coordinates) (dec_deg coordinates) = true →
  ∃ k r,
    k ≤ j
    ∧ first_match (ra_deg coordinates) (dec_deg coordinates) table_south
      = Some (k, r)
    ∧ let url := resource_identifier (URL self) data_release "south" r in
      query_region_async W self coordinates radius get_query_payload cache
        data_release s
      = (Some <$> requests_get W url,
         add_log (visits TableNorth 0 (length table_north)
                  ++ visits TableSouth 0 (S k) ++ [EvGet url]) s2).
Proof.
  intros Hnorth Hsouth Hmiss%first_match_None Hj Hin.
  destruct (first_match_exists _ _ table_south j rj Hj Hin)
    as (k & r & Hk & Hfm).
  exists k, r. split_and!; [done..|].
  rewrite (query_region_async_run _ _ _ _ _ _ _ _ _ _ _ _ Hnorth Hsouth).
  unfold rows_visited. rewrite Hmiss, Hfm. cbv beta iota zeta.
  by rewrite add_log_add_log, <- app_assoc.
Qed.

Lemma first_south_match_wins_witness :
  ∃ k r,
    k ≤ 2
    ∧ first_match (ra_deg in_0001m002) (dec_deg in_0001m002)
        [brick_1000p005; brick_0001m002; brick_0005m002]
      = Some (k, r)
    ∧ let url := resource_identifier (URL survey) 9 "south" r in
      query_region_async two_in_south survey in_0001m002 3 false true 9 start
      = (Some <$> requests_get two_in_south url,
         add_log (visits TableNorth 0 (length [brick_0105p000])
                  ++ visits TableSouth 0 (S k) ++ [EvGet url])
           (after_south two_in_south)).
Proof.
  apply (first_south_match_wins two_in_south survey in_0001m002 3 false true
           9 [brick_0105p000]
           [brick_1000p005; brick_0001m002; brick_0005m002] start
           (after_north two_in_south) (after_south two_in_south)
           2 brick_0005m002); by_evaluation.
Defined.

Example two_in_south_log :
  query_region_async two_in_south survey in_0001m002 3 false true 9 start
  = (Return (Some tractor_fits),
     add_log [ EvVisit TableNorth 0; EvVisit TableSouth 0;
               EvVisit TableSouth 1;
               EvGet "https://portal.nersc.gov/cfs/cosmo/data/legacysurvey/dr9/south/tractor/000/tractor-0001m002.fits" ]
       (after_south two_in_south)).
Proof. by_evaluation. Qed.

(** X10: the answer depends on the point only through the brick it
    selects.  Two points that select the same hemisphere and row (or both
    none) get the same outcome from the same catalogs. *)
Theorem same_brick_same_answer W self coordinates coordinates' radius
    get_query_payload cache data_release (table_north table_south : Table)
    s s1 s2 :
  query_brick_list W self data_release "north" s = (Return table_north, s1) →
  query_brick_list W self data_release "south" s1 = (Return table_south, s2) →
  selected (ra_deg coordinates) (dec_deg coordinates) table_north table_south
  = selected (ra_deg coordinates') (dec_deg coordinates') table_north
      table_south →
  (query_region_async W self coordinates radius get_query_payload cache
     data_release s).1
  = (query_region_async W self coordinates' radius get_query_payload cache
       data_release s).1.
Proof.
  intros Hnorth Hsouth.
  rewrite !(query_region_async_run _ _ _ _ _ _ _ _ _ _ _ _ Hnorth Hsouth).
  unfold selected.
  destruct (first_match (ra_deg coordinates) (dec_deg coordinates)
              table_north) as [[kn rn]|];
    destruct (first_match (ra_deg coordinates) (dec_deg coordinates)
                table_south) as [[ks rs]|];
    destruct (first_match (ra_deg coordinates') (dec_deg coordinates')
                table_north) as [[kn' rn']|];
    destruct (first_match (ra_deg coordinates') (dec_deg coordinates')
                table_south) as [[ks' rs']|];
    intros Hsel; simplify_eq; done.
Qed.

Lemma same_brick_same_answer_witness :
  (query_region_async north_and_south survey in_0001m002 3 false true 9
     start).1
  = (query_region_async north_and_south survey also_in_0001m002 3 false true
       9 start).1.
Proof.
  apply (same_brick_same_answer north_and_south survey in_0001m002
           also_in_0001m002 3 false true 9 [brick_0001m002]
           [brick_0105p000; brick_0005m002] start
           (after_north north_and_south) (after_south north_and_south));
    by_evaluation.
Defined.

(** X11: rows after a match do not count.  When a row of [table] holds the
    point, the loop over [table] followed by any further rows does what the
    loop over [table] does: same row, same visits. *)
Theorem scan_ignores_rows_after_match c ra dec (table extra : Table) i ri s :
  table !! i = Some ri → in_box ri ra dec = true →
  scan c ra dec 0 (table ++ extra) s = scan c ra dec 0 table s.
Proof.
  intros Hi Hin.
  destruct (first_match_exists ra dec table i ri Hi Hin) as (k & r & _ & Hfm).
  rewrite !scan_spec. unfold rows_visited.
  assert (first_match ra dec (table ++ extra) = Some (k, r)) as ->.
  { unfold first_match in *. by apply list_find_app_l. }
  by rewrite Hfm.
Qed.

Lemma scan_ignores_rows_after_match_witness :
  scan TableSouth (1 # 2) 0 0
    ([brick_0105p000; brick_0001m002] ++ [brick_0005m002; brick_1000p005])
    start
  = scan TableSouth (1 # 2) 0 0 [brick_0105p000; brick_0001m002] start.
Proof.
  apply (scan_ignores_rows_after_match TableSouth (1 # 2) 0
           [brick_0105p000; brick_0001m002] [brick_0005m002; brick_1000p005]
           1 brick_0001m002 start); reflexivity.
Defined.

(** ** The requests of a region query *)

Lemma filter_fetch_visits c i n : List.filter is_fetch (visits c i n) = [].
Proof.
  revert i. induction n as [|n IH]; intros i; [done|].
  rewrite visits_cons. simpl. apply IH.
Qed.

(** X12: the whole of a region query whose two catalogs are served and
    decode.  It makes the request for the north catalog, then the one for
    the south catalog, then, when the point selects a brick, the one for
    the resource of that brick, and no other: three requests at most.  Its
    outcome is that of the last request, or [None].  Afterwards
    [/tmp/file_content] holds the bytes of the south catalog. *)
Theorem region_query_requests W self coordinates radius get_query_payload
    cache data_release s response_north response_south
    (table_north table_south : Table) :
  requests_get W (bricks_url (URL self) data_release "north")
  = Return response_north →
  table_read W (content response_north) 1 = Return table_north →
  requests_get W (bricks_url (URL self) data_release "south")
  = Return response_south →
  table_read W (content response_south) 1 = Return table_south →
  let run := query_region_async W self coordinates radius get_query_payload
               cache data_release s in
  let choice := selected (ra_deg coordinates) (dec_deg coordinates)
                  table_north table_south in
  run.1 = match choice with
          | Some (hemisphere, r) =>
              Some <$> requests_get W
                         (resource_identifier (URL self) data_release
                            hemisphere r)
          | None => Return None
          end
  ∧ files run.2 = <["/tmp/file_content" := content response_south]> (files s)
  ∧ ∃ evs,
      log run.2 = log s ++ evs
      ∧ List.filter is_fetch evs
        = EvGet (bricks_url (URL self) data_release "north")
          :: EvGet (bricks_url (URL self) data_release "south")
          :: match choice with
             | Some (hemisphere, r) =>
                 [EvGet (resource_identifier (URL self) data_release
                           hemisphere r)]
             | None => []
             end.
Proof.
  intros Hgn Hrn Hgs Hrs run choice.
  pose proof (query_brick_list_run W self data_release "north" s) as Hnorth.
  cbv zeta in Hnorth. rewrite Hgn, Hrn in Hnorth.
  pose proof (query_brick_list_run W self data_release "south"
                (with_file "/tmp/file_content" (content response_north)
                   (add_log (brick_list_log (URL self) data_release "north")
                      s))) as Hsouth.
  cbv zeta in Hsouth. rewrite Hgs, Hrs in Hsouth.
  rewrite !with_file_add_log, with_file_with_file, add_log_add_log in Hsouth.
  unfold run, choice, selected.
  rewrite (query_region_async_run _ _ _ _ _ _ _ _ _ _ _ _ Hnorth Hsouth).
  destruct (first_match (ra_deg coordinates) (dec_deg coordinates)
              table_north) as [[kn rn]|];
    [|destruct (first_match (ra_deg coordinates) (dec_deg coordinates)
                  table_south) as [[ks rs]|]];
    cbv beta iota zeta; rewrite ?add_log_add_log;
    (split_and!; [done|done|]); eexists; (split; [reflexivity|]);
    rewrite !List.filter_app, !filter_fetch_visits; reflexivity.
Qed.

Lemma region_query_requests_witness :
  let run := query_region_async south_only survey in_0105p000 3 false true 9
               start in
  let choice := selected (ra_deg in_0105p000) (dec_deg in_0105p000)
                  [brick_0001m002] [brick_0105p000] in
  run.1 = match choice with
          | Some (hemisphere, r) =>
              Some <$> requests_get south_only
                         (resource_identifier (URL survey) 9 hemisphere r)
          | None => Return None
          end
  ∧ files run.2 = <["/tmp/file_content" := content bricks_south_gz]>
                    (files start)
  ∧ ∃ evs,
      log run.2 = log start ++ evs
      ∧ List.filter is_fetch evs
        = EvGet (bricks_url (URL survey) 9 "north")
          :: EvGet (bricks_url (URL survey) 9 "south")
          :: match choice with
             | Some (hemisphere, r) =>
                 [EvGet (resource_identifier (URL survey) 9 hemisphere r)]
             | None => []
             end.
Proof.
  apply (region_query_requests south_only survey in_0105p000 3 false true 9
           start bricks_north_gz bricks_south_gz [brick_0001m002]
           [brick_0105p000]); reflexivity.
Defined.

(** ** The integer part and the directory name *)

(** X13: [int] rounds toward zero, for negative bounds too: it commutes
    with the sign, and its absolute value is the integer part of the
    absolute value. *)
Theorem int_rounds_toward_zero q :
  int (- q) = (- int q)%Z
  ∧ (inject_Z (Z.abs (int q)) <= Qabs q)%Q
  ∧ (Qabs q < inject_Z (Z.abs (int q) + 1))%Q.
Proof.
  destruct q as [a b]. unfold int, Qle, Qlt, inject_Z. simpl. split.
  - by apply Z.quot_opp_l.
  - rewrite <- Z.quot_abs by done.
    change (Z.abs (Z.pos b)) with (Z.pos b).
    rewrite Z.quot_div_nonneg by lia.
    pose proof (Z.mul_div_le (Z.abs a) (Z.pos b)).
    pose proof (Z.mul_succ_div_gt (Z.abs a) (Z.pos b)). lia.
Qed.

Example ra1_below_zero :
  format_03 (int (ra1 brick_m0005m002)) = "000"
  ∧ format_03 (int (-3599 # 10)) = "-359"
  ∧ in_box brick_m0005m002 (-1 # 4) 0 = true.
Proof. by_evaluation. Qed.

(** Strings: cancellation on the right, and splitting at the first
    separator. *)
Lemma string_app_inj_r (a b s : string) : a +:+ s = b +:+ s → a = b.
Proof.
  revert b. induction a as [|c a IH]; intros [|d b] Heq.
  - done.
  - apply (f_equal String.length) in Heq.
    rewrite !string_length_app in Heq. simpl in Heq. lia.
  - apply (f_equal String.length) in Heq.
    rewrite !string_length_app in Heq. simpl in Heq. lia.
  - change (String c (a +:+ s) = String d (b +:+ s)) in Heq.
    injection Heq as -> Heq. f_equal. by apply IH.
Qed.

Lemma no_slash_app (a b : string) :
  no_slash (a +:+ b) = no_slash a && no_slash b.
Proof.
  induction a as [|c a IH]; simpl; [done|]. by rewrite IH, andb_assoc.
Qed.

Lemma split_at_slash (a b x y : string) :
  no_slash a = true → no_slash b = true →
  a +:+ String "/" x = b +:+ String "/" y → a = b ∧ x = y.
Proof.
  revert b. induction a as [|c a IH]; intros [|d b]; simpl; intros Ha Hb Heq.
  - by injection Heq.
  - injection Heq as <- _. done.
  - injection Heq as -> _. done.
  - injection Heq as -> Heq.
    apply andb_true_iff in Ha as [_ Ha]. apply andb_true_iff in Hb as [_ Hb].
    destruct (IH b Ha Hb Heq) as [-> ->]. done.
Qed.

(** The digits that [pretty] writes. *)
Lemma pretty_N_char_digit d :
  (d < 10)%N → (N_of_ascii (pretty_N_char d) - 48)%N = d.
Proof.
  intros Hd.
  assert (d = 0 ∨ d = 1 ∨ d = 2 ∨ d = 3 ∨ d = 4 ∨ d = 5 ∨ d = 6 ∨ d = 7
          ∨ d = 8 ∨ d = 9)%N as Hcases by lia.
  repeat destruct Hcases as [->|Hcases]; try reflexivity. by subst.
Qed.

Lemma pretty_N_char_no_slash d : Ascii.eqb (pretty_N_char d) "/" = false.
Proof. unfold pretty_N_char. by repeat case_match. Qed.

Lemma string_app_assoc (a b c : string) :
  (a +:+ b) +:+ c = a +:+ (b +:+ c).
Proof.
  induction a as [|ch a IH]; [done|].
  change (String ch ((a +:+ b) +:+ c) = String ch (a +:+ (b +:+ c))).
  by rewrite IH.
Qed.

Lemma pretty_N_go_app x s : pretty_N_go x s = pretty_N_go x "" +:+ s.
Proof.
  revert s. induction (N.lt_wf_0 x) as [x _ IH]; intros s.
  assert (x = 0 ∨ 0 < x)%N as [->|Hx] by lia.
  - by rewrite !pretty_N_go_0.
  - assert (x `div` 10 < x)%N as Hlt by (apply N.div_lt; lia).
    rewrite (pretty_N_go_step x s), (pretty_N_go_step x "") by done.
    rewrite (IH _ Hlt (String _ s)), (IH _ Hlt (String _ "")).
    by rewrite string_app_assoc.
Qed.

Lemma decimal_value_app acc (a b : string) :
  decimal_value acc (a +:+ b) = decimal_value (decimal_value acc a) b.
Proof. revert acc. induction a as [|c a IH]; intros acc; simpl; [done | apply IH]. Qed.

Lemma decimal_value_pretty_N_go x : decimal_value 0 (pretty_N_go x "") = x.
Proof.
  induction (N.lt_wf_0 x) as [x _ IH].
  assert (x = 0 ∨ 0 < x)%N as [->|Hx] by lia; [done|].
  rewrite pretty_N_go_step, pretty_N_go_app, decimal_value_app by done.
  rewrite IH by (apply N.div_lt; lia). simpl.
  rewrite pretty_N_char_digit by (apply N.mod_lt; lia).
  pose proof (N.div_mod x 10). lia.
Qed.

Lemma decimal_value_pretty (x : N) : decimal_value 0 (pretty x) = x.
Proof.
  unfold pretty, pretty_N. case_decide as Hx; [by subst|].
  apply decimal_value_pretty_N_go.
Qed.

Lemma decimal_value_zeros k (s : string) :
  decimal_value 0 (zeros k +:+ s) = decimal_value 0 s.
Proof. induction k as [|k IH]; simpl; [done | apply IH]. Qed.

Lemma pretty_abs n : pretty (Z.abs n) = pretty (Z.to_N (Z.abs n)).
Proof. by destruct n. Qed.

Lemma no_slash_pretty_N_go x s :
  no_slash s = true → no_slash (pretty_N_go x s) = true.
Proof.
  revert s. induction (N.lt_wf_0 x) as [x _ IH]; intros s Hs.
  assert (x = 0 ∨ 0 < x)%N as [->|Hx] by lia.
  - by rewrite pretty_N_go_0.
  - rewrite pretty_N_go_step by done. apply IH; [apply N.div_lt; lia|].
    simpl. by rewrite pretty_N_char_no_slash.
Qed.

Lemma no_slash_pretty (x : N) : no_slash (pretty x) = true.
Proof.
  unfold pretty, pretty_N. case_decide; [done|].
  by apply no_slash_pretty_N_go.
Qed.

Lemma no_slash_zeros k : no_slash (zeros k) = true.
Proof. induction k as [|k IH]; simpl; [done | apply IH]. Qed.

Lemma no_slash_format_03 n : no_slash (format_03 n) = true.
Proof.
  unfold format_03. rewrite !no_slash_app, no_slash_zeros, pretty_abs.
  rewrite no_slash_pretty. by destruct (n <? 0)%Z.
Qed.

(** Reading the digits back gives the number, so the directory name
    determines the integer it was made from. *)
Lemma format_03_digits_value k n :
  decimal_value 0 (zeros k +:+ pretty (Z.abs n)) = Z.to_N (Z.abs n).
Proof. by rewrite decimal_value_zeros, pretty_abs, decimal_value_pretty. Qed.

Lemma padded_digits_no_dash k n (rest : string) :
  zeros k +:+ pretty (Z.abs n) ≠ String "-" rest.
Proof.
  destruct k as [|k]; [|done]. change (zeros 0 +:+ ?x) with x.
  rewrite pretty_abs. unfold pretty, pretty_N. case_decide; [done|].
  by apply (pretty_N_go_ne_dash _ "" rest).
Qed.

Lemma format_03_inj n m : format_03 n = format_03 m → n = m.
Proof.
  unfold format_03.
  destruct (Z.ltb_spec n 0) as [Hn|Hn], (Z.ltb_spec m 0) as [Hm|Hm];
    intros Heq.
  - apply (inj (String.append "-")) in Heq.
    apply (f_equal (decimal_value 0)) in Heq.
    rewrite !format_03_digits_value in Heq. lia.
  - symmetry in Heq. by apply padded_digits_no_dash in Heq.
  - by apply padded_digits_no_dash in Heq.
  - apply (f_equal (decimal_value 0)) in Heq.
    change ("" +:+ ?x) with x in Heq.
    rewrite !format_03_digits_value in Heq. lia.
Qed.

(** ** Addresses do not collide *)

(** X14: within one call the north and the south resources never share an
    address, whatever the rows are. *)
Theorem hemispheres_never_share_an_address base_url data_release r r' :
  resource_identifier base_url data_release "north" r
  ≠ resource_identifier base_url data_release "south" r'.
Proof.
  unfold resource_identifier. intros Heq.
  do 4 apply String.app_inj in Heq. discriminate Heq.
Qed.

(** X15: two rows get the same address, for the same server, release and
    hemisphere, only if they have the same brick name and the same integer
    part of [ra1]: the directory and the file name can be read back from
    the address. *)
Theorem resource_identifier_inj base_url data_release hemisphere r r' :
  resource_identifier base_url data_release hemisphere r
  = resource_identifier base_url data_release hemisphere r' →
  int (ra1 r) = int (ra1 r') ∧ brickname r = brickname r'.
Proof.
  unfold resource_identifier. intros Heq.
  do 6 apply String.app_inj in Heq.
  apply split_at_slash in Heq as [Hdir Hname];
    [|apply no_slash_format_03..].
  split; [by apply format_03_inj|].
  apply (inj (String.append "tractor-")) in Hname.
  by apply string_app_inj_r in Hname.
Qed.

(** Two rows that differ in all four bounds and share an address. *)
Lemma resource_identifier_inj_witness :
  brick_0001m002 ≠ brick_0001m002_narrow
  ∧ ra1 brick_0001m002 ≠ ra1 brick_0001m002_narrow
  ∧ int (ra1 brick_0001m002) = int (ra1 brick_0001m002_narrow)
  ∧ brickname brick_0001m002 = brickname brick_0001m002_narrow.
Proof.
  split; [discriminate|]. split; [discriminate|].
  apply (resource_identifier_inj (URL survey) 9 "north" brick_0001m002
           brick_0001m002_narrow).
  vm_compute. reflexivity.
Defined.

Example same_directory_other_file :
  int (ra1 brick_0001m002) = int (ra1 brick_0005m002)
  ∧ resource_identifier (URL survey) 9 "north" brick_0001m002
    ≠ resource_identifier (URL survey) 9 "north" brick_0005m002.
Proof. by_evaluation. Qed.
